(** * SimpleWidgetBase: a delegating base type for fyne widgets

  Shallow embedding of [widget/simple_widget.go] and proofs of the
  properties its specification states.

  The Go code is stateful and calls out to the host toolkit, to
  caller-supplied closures and to caller-supplied locks.  It is embedded
  in a state-and-fault monad over a [World] that holds the fields of the
  [SimpleWidgetBase] struct, the state outside of it, and the log of every
  step that the methods perform. *)

From Stdlib Require Import List String Bool Arith Lia.
Import ListNotations.

Set Implicit Arguments.

(** ** Method sets and type assertions

    [x.(SimpleWidget)] in [super] is a run-time check that the dynamic type
    of [x] has every method of the interface, with the same signature. *)
Module GoTypes.

(** A method: its name and its signature (parameter names left out). *)
Definition Method : Type := (string * string)%type.
Definition MethodSet : Type := list Method.

Fixpoint lookup (name : string) (ms : MethodSet) : option string :=
  match ms with
  | [] => None
  | (n, sig) :: rest => if String.eqb n name then Some sig else lookup name rest
  end.

Definition declares (ms : MethodSet) (name : string) : bool :=
  match lookup name ms with Some _ => true | None => false end.

(** Methods of an embedded field are promoted to the embedding struct
    unless the struct declares a method of that name itself. *)
Definition promoted (own embedded : MethodSet) : MethodSet :=
  filter (fun m => negb (declares own (fst m))) embedded.

Definition has_method (T : MethodSet) (m : Method) : bool :=
  match lookup (fst m) T with
  | Some sig => String.eqb sig (snd m)
  | None => false
  end.

(** [implements T I]: the type with method set [T] satisfies interface [I]. *)
Definition implements (T I : MethodSet) : bool := forallb (has_method T) I.

End GoTypes.
Import GoTypes.

(** ** The host toolkit

    [fyne.Widget] and [widget.BaseWidget] are declared by the imported
    toolkit ([fyne.io/fyne/v2]), not by this package: the model takes their
    method sets as a parameter. *)
Record HostToolkit : Type := {
  Widget_methods : MethodSet;      (* the interface fyne.Widget *)
  BaseWidget_methods : MethodSet   (* the method set of *widget.BaseWidget *)
}.

(** The toolkit as fyne v2 declares it: [fyne.Widget] is [fyne.CanvasObject]
    plus [CreateRenderer], and [*widget.BaseWidget] carries the
    [CanvasObject] methods and [ExtendBaseWidget]. *)
Definition fyne_v2 : HostToolkit := {|
  Widget_methods :=
  [ ("MinSize", "func() fyne.Size");
    ("Move", "func(fyne.Position)");
    ("Position", "func() fyne.Position");
    ("Resize", "func(fyne.Size)");
    ("Size", "func() fyne.Size");
    ("Hide", "func()");
    ("Visible", "func() bool");
    ("Show", "func()");
    ("Refresh", "func()");
    ("CreateRenderer", "func() fyne.WidgetRenderer") ]%string;
  BaseWidget_methods :=
  [ ("ExtendBaseWidget", "func(fyne.Widget)");
    ("Size", "func() fyne.Size");
    ("Resize", "func(fyne.Size)");
    ("Position", "func() fyne.Position");
    ("Move", "func(fyne.Position)");
    ("MinSize", "func() fyne.Size");
    ("Visible", "func() bool");
    ("Show", "func()");
    ("Hide", "func()");
    ("Refresh", "func()") ]%string
|}.

(** A toolkit whose base widget lacks [Refresh]; no such toolkit is imported
    by the package, it only shows what the assertion in [super] checks. *)
Definition toolkit_without_Refresh : HostToolkit := {|
  Widget_methods := Widget_methods fyne_v2;
  BaseWidget_methods :=
    filter (fun m => negb (String.eqb (fst m) "Refresh"))
           (BaseWidget_methods fyne_v2)
|}.

(** [type SimpleWidget interface { fyne.Widget; Render() (...) }] *)
Definition SimpleWidget_methods (host : HostToolkit) : MethodSet :=
  Widget_methods host
  ++ [ ("Render", "func() ([]fyne.CanvasObject, func(fyne.Size))") ]%string.

(** The methods declared with receiver [*SimpleWidgetBase]. *)
Definition SimpleWidgetBase_declared : MethodSet :=
  [ ("Render", "func() ([]fyne.CanvasObject, func(fyne.Size))");
    ("CreateRenderer", "func() fyne.WidgetRenderer");
    ("SetState", "func(func())");
    ("SetStateSafe", "func(sync.Locker, func())");
    ("ExtendBaseWidget", "func(SimpleWidget)");
    ("super", "func() SimpleWidget");
    ("getImpl", "func() SimpleWidget") ]%string.

(** The method set of [*SimpleWidgetBase]: its own methods and those
    promoted from the embedded [widget.BaseWidget]. *)
Definition SimpleWidgetBase_methods (host : HostToolkit) : MethodSet :=
  SimpleWidgetBase_declared
  ++ promoted SimpleWidgetBase_declared (BaseWidget_methods host).

(** ** Data *)

(** A non-nil value of interface type [SimpleWidget]: either the base
    object [s] itself (dynamic type [*SimpleWidgetBase]) or some other
    widget object, named by its identity. *)
Inductive WidgetRef : Type :=
| BaseSelf
| Derived (id : nat).

(** An interface value; [None] is the nil interface. *)
Definition SimpleWidget : Type := option WidgetRef.

(** A caller-supplied [sync.Locker], named by its identity. *)
Definition Locker : Type := nat.

(** [sync.RWMutex]: held by one writer or by a number of readers. *)
Record RWMutex : Type := {
  writer : bool;
  readers : nat
}.

Definition unlocked : RWMutex := {| writer := false; readers := 0 |}.

(** [type SimpleWidgetBase struct].  The embedded [widget.BaseWidget] is
    owned by the toolkit; the calls made on it are recorded in the log. *)
Record SimpleWidgetBase : Type := {
  propertyLock : RWMutex;
  impl : SimpleWidget
}.

(** The steps the methods perform, in program order. *)
Inductive Event : Type :=
| EvRLock                                  (* s.propertyLock.RLock() *)
| EvRUnlock                                (* s.propertyLock.RUnlock() *)
| EvLock                                   (* s.propertyLock.Lock() *)
| EvUnlock                                 (* s.propertyLock.Unlock() *)
| EvStoreImpl (wid : SimpleWidget)         (* s.impl = wid *)
| EvBaseExtend (wid : SimpleWidget)        (* s.BaseWidget.ExtendBaseWidget(wid) *)
| EvLockerLock (m : Locker)                (* m.Lock() *)
| EvLockerUnlock (m : Locker)              (* m.Unlock() *)
| EvRender (wdgt : WidgetRef)              (* wdgt.Render() *)
| EvRefresh (wdgt : WidgetRef).            (* wdgt.Refresh() *)

(** Steps on the unexported fields are not visible outside the package. *)
Definition observable (e : Event) : bool :=
  match e with
  | EvRLock | EvRUnlock | EvLock | EvUnlock | EvStoreImpl _ => false
  | _ => true
  end.

(** The non-nil widgets handed to the host's [BaseWidget.ExtendBaseWidget]. *)
Fixpoint registrations (tr : list Event) : list WidgetRef :=
  match tr with
  | [] => []
  | EvBaseExtend (Some d) :: rest => d :: registrations rest
  | _ :: rest => registrations rest
  end.

Definition is_refresh (e : Event) : bool :=
  match e with EvRefresh _ => true | _ => false end.

Definition is_render (e : Event) : bool :=
  match e with EvRender _ => true | _ => false end.

(** Every argument handed to the host's [BaseWidget.ExtendBaseWidget], nil
    ones included, in call order. *)
Fixpoint host_calls (tr : list Event) : list SimpleWidget :=
  match tr with
  | [] => []
  | EvBaseExtend wid :: rest => wid :: host_calls rest
  | _ :: rest => host_calls rest
  end.

(** The first non-nil widget of a list, nil when there is none. *)
Fixpoint first_set (wids : list SimpleWidget) : SimpleWidget :=
  match wids with
  | [] => None
  | Some d :: _ => Some d
  | None :: rest => first_set rest
  end.

(** The list up to and including its first non-nil widget. *)
Fixpoint upto_first_set (wids : list SimpleWidget) : list SimpleWidget :=
  match wids with
  | [] => []
  | Some d :: _ => [Some d]
  | None :: rest => None :: upto_first_set rest
  end.

(** Run-time faults. *)
Inductive Fault : Type :=
| TypeAssertionFault     (* interface conversion: missing method *)
| NilDereference         (* method call on a nil interface *)
| UnlockOfUnlocked       (* sync: unlock of unlocked mutex *)
| UserPanic.             (* a panic raised by caller-supplied code *)

Section Model.

(** State of the program outside of the struct's unexported fields. *)
Variable U : Type.
(** [fyne.Size] and [fyne.CanvasObject]. *)
Variable Size : Type.
Variable CanvasObject : Type.

Variable host : HostToolkit.

(** What callers can reach: their own state and their locks. *)
Record Ext : Type := {
  user : U;
  held : list Locker
}.

Record World : Type := {
  base : SimpleWidgetBase;
  ext : Ext;
  trace : list Event
}.

(** Outcome of a call: it returns, it panics, or it blocks for ever on a
    lock that is held.  Each carries the world at that point. *)
Inductive Result (A : Type) : Type :=
| Ok (a : A) (w : World)
| Panic (e : Fault) (w : World)
| Blocked (w : World).
Arguments Panic {A} e w.
Arguments Blocked {A} w.

Definition M (A : Type) : Type := World -> Result A.

Definition final {A} (r : Result A) : World :=
  match r with Ok _ w | Panic _ w | Blocked w => w end.

Definition ret {A} (a : A) : M A := fun w => Ok a w.

Definition bind {A B} (c : M A) (k : A -> M B) : M B :=
  fun w =>
    match c w with
    | Ok a w' => k a w'
    | Panic e w' => Panic e w'
    | Blocked w' => Blocked w'
    end.

Definition panic {A} (e : Fault) : M A := fun w => Panic e w.

(** [defer cleanup; body]: [cleanup] runs when [body] returns and also
    when it panics. *)
Definition with_defer {A} (cleanup : M unit) (body : M A) : M A :=
  fun w =>
    match body w with
    | Ok a w' => bind cleanup (fun _ => ret a) w'
    | Panic e w' => bind cleanup (fun _ => panic e) w'
    | Blocked w' => Blocked w'
    end.

Notation "x <- c ;; k" := (bind c (fun x => k))
  (at level 61, c at next level, right associativity).
Notation "c ;;; k" := (bind c (fun _ => k))
  (at level 61, right associativity).

Definition emit (e : Event) : M unit :=
  fun w => Ok tt {| base := base w; ext := ext w; trace := trace w ++ [e] |}.

Definition set_base (b : SimpleWidgetBase) (w : World) : World :=
  {| base := b; ext := ext w; trace := trace w |}.

Definition set_ext (x : Ext) (w : World) : World :=
  {| base := base w; ext := x; trace := trace w |}.

Definition set_propertyLock (l : RWMutex) (w : World) : World :=
  set_base {| propertyLock := l; impl := impl (base w) |} w.

Definition set_impl (wid : SimpleWidget) (w : World) : World :=
  set_base {| propertyLock := propertyLock (base w); impl := wid |} w.

(** *** [s.propertyLock] *)

Definition propertyLock_RLock : M unit :=
  fun w =>
    let l := propertyLock (base w) in
    if writer l then Blocked w
    else emit EvRLock
           (set_propertyLock {| writer := false; readers := S (readers l) |} w).

Definition propertyLock_RUnlock : M unit :=
  fun w =>
    let l := propertyLock (base w) in
    match readers l with
    | O => Panic UnlockOfUnlocked w
    | S n => emit EvRUnlock
               (set_propertyLock {| writer := writer l; readers := n |} w)
    end.

Definition propertyLock_Lock : M unit :=
  fun w =>
    let l := propertyLock (base w) in
    if writer l then Blocked w
    else match readers l with
         | O => emit EvLock
                  (set_propertyLock {| writer := true; readers := 0 |} w)
         | S _ => Blocked w
         end.

Definition propertyLock_Unlock : M unit :=
  fun w =>
    let l := propertyLock (base w) in
    if writer l
    then emit EvUnlock
           (set_propertyLock {| writer := false; readers := readers l |} w)
    else Panic UnlockOfUnlocked w.

(** *** [s.impl] *)

Definition load_impl : M SimpleWidget := fun w => Ok (impl (base w)) w.

Definition store_impl (wid : SimpleWidget) : M unit :=
  fun w => emit (EvStoreImpl wid) (set_impl wid w).

(** *** Caller-supplied locks, behaving as [sync.Mutex] *)

Definition is_held (m : Locker) (x : Ext) : bool :=
  existsb (Nat.eqb m) (held x).

Definition Locker_Lock (m : Locker) : M unit :=
  fun w =>
    if is_held m (ext w) then Blocked w
    else emit (EvLockerLock m)
           (set_ext {| user := user (ext w); held := m :: held (ext w) |} w).

Definition Locker_Unlock (m : Locker) : M unit :=
  fun w =>
    if is_held m (ext w)
    then emit (EvLockerUnlock m)
           (set_ext {| user := user (ext w);
                       held := filter (fun k => negb (Nat.eqb m k)) (held (ext w)) |} w)
    else Panic UnlockOfUnlocked w.

(** *** Calls into the host toolkit and into other widgets *)

(** [s.BaseWidget.ExtendBaseWidget(wid)] *)
Definition BaseWidget_ExtendBaseWidget (wid : SimpleWidget) : M unit :=
  emit (EvBaseExtend wid).

(** [wdgt.Refresh()] *)
Definition call_Refresh (wdgt : SimpleWidget) : M unit :=
  match wdgt with
  | None => panic NilDereference
  | Some r => emit (EvRefresh r)
  end.

(** The layout function returned by [Render]. *)
Definition Layout : Type := Size -> M unit.

(** The [Render] methods of the other widgets: caller code, which acts on
    the state outside the base's unexported fields and may panic. *)
Variable derived_Render :
  nat -> Ext -> option ((list CanvasObject * Layout) * Ext).

(** [fyne.WidgetRenderer] and the package's constructor of it. *)
Variable WidgetRenderer : Type.
Variable newSimpleRenderer :
  SimpleWidget -> list CanvasObject -> Layout -> WidgetRenderer.

(** ** The methods of [*SimpleWidgetBase] *)

(** [func (s *SimpleWidgetBase) Render()] *)
Definition Render : M (list CanvasObject * Layout) :=
  ret ([], fun _ : Size => ret tt).

(** [wdgt.Render()], dispatched on the dynamic type of [wdgt]. *)
Definition call_Render (wdgt : SimpleWidget) : M (list CanvasObject * Layout) :=
  match wdgt with
  | None => panic NilDereference
  | Some BaseSelf => emit (EvRender BaseSelf) ;;; Render
  | Some (Derived id) =>
      emit (EvRender (Derived id)) ;;;
      (fun w =>
         match derived_Render id (ext w) with
         | Some (r, x) => Ok r (set_ext x w)
         | None => Panic UserPanic w
         end)
  end.

(** [func (s *SimpleWidgetBase) getImpl() SimpleWidget] *)
Definition getImpl : M SimpleWidget :=
  propertyLock_RLock ;;;
  i <- load_impl ;;
  propertyLock_RUnlock ;;;
  match i with
  | None => ret None
  | Some _ => ret i
  end.

(** [x.(SimpleWidget)] for [var x interface{} = s]. *)
Definition assert_SimpleWidget_of_s : M SimpleWidget :=
  if implements (SimpleWidgetBase_methods host) (SimpleWidget_methods host)
  then ret (Some BaseSelf)
  else panic TypeAssertionFault.

(** [func (s *SimpleWidgetBase) super() SimpleWidget] *)
Definition super : M SimpleWidget :=
  i <- getImpl ;;
  match i with
  | None => assert_SimpleWidget_of_s
  | Some _ => ret i
  end.

(** [func (s *SimpleWidgetBase) CreateRenderer() fyne.WidgetRenderer] *)
Definition CreateRenderer : M WidgetRenderer :=
  wdgt <- super ;;
  r <- call_Render wdgt ;;
  let (objs, layout) := r in
  ret (newSimpleRenderer wdgt objs layout).

(** [func (s *SimpleWidgetBase) SetState(setState func())] *)
Definition SetState (setState : M unit) : M unit :=
  setState ;;;
  wdgt <- super ;;
  call_Refresh wdgt.

(** [func (s *SimpleWidgetBase) SetStateSafe(m sync.Locker, setState func())] *)
Definition SetStateSafe (m : Locker) (setState : M unit) : M unit :=
  Locker_Lock m ;;;
  setState ;;;
  Locker_Unlock m ;;;
  wdgt <- super ;;
  call_Refresh wdgt.

(** [func (s *SimpleWidgetBase) ExtendBaseWidget(wid SimpleWidget)] *)
Definition ExtendBaseWidget (wid : SimpleWidget) : M unit :=
  i <- getImpl ;;
  match i with
  | Some _ => ret tt
  | None =>
      BaseWidget_ExtendBaseWidget wid ;;;
      propertyLock_Lock ;;;
      with_defer propertyLock_Unlock (store_impl wid)
  end.

(** ** Callers

    Code outside the package reaches the base only through its methods;
    everything else it does is a step on [Ext].  A closure handed to
    [SetState] or [SetStateSafe] is such a program again. *)
Inductive Client : Type :=
| Finish
| UserStep (g : Ext -> option Ext) (k : Client)
| CallExtendBaseWidget (wid : SimpleWidget) (k : Client)
| CallSetState (f : Client) (k : Client)
| CallSetStateSafe (m : Locker) (f : Client) (k : Client)
| CallCreateRenderer (k : Client)
| CallRender (k : Client)
| CallSuper (k : Client)
| CallGetImpl (k : Client).

Definition user_step (g : Ext -> option Ext) : M unit :=
  fun w =>
    match g (ext w) with
    | Some x => Ok tt (set_ext x w)
    | None => Panic UserPanic w
    end.

Fixpoint run (c : Client) : M unit :=
  match c with
  | Finish => ret tt
  | UserStep g k => user_step g ;;; run k
  | CallExtendBaseWidget wid k => ExtendBaseWidget wid ;;; run k
  | CallSetState f k => SetState (run f) ;;; run k
  | CallSetStateSafe m f k => SetStateSafe m (run f) ;;; run k
  | CallCreateRenderer k => CreateRenderer ;;; run k
  | CallRender k => Render ;;; run k
  | CallSuper k => super ;;; run k
  | CallGetImpl k => getImpl ;;; run k
  end.

(** The widget as the zero value of the struct leaves it. *)
Definition fresh (x : Ext) : World :=
  {| base := {| propertyLock := unlocked; impl := None |};
     ext := x;
     trace := [] |}.

Definition idle (w : World) : Prop := propertyLock (base w) = unlocked.

(** [w] with the steps [es] added to its log. *)
Definition logged (es : list Event) (w : World) : World :=
  {| base := base w; ext := ext w; trace := trace w ++ es |}.

(** [w] once [m.Lock()] has returned. *)
Definition locked (m : Locker) (w : World) : World :=
  {| base := base w;
     ext := {| user := user (ext w); held := m :: held (ext w) |};
     trace := trace w ++ [EvLockerLock m] |}.

(** [w] once [m.Unlock()] has returned. *)
Definition released (m : Locker) (w : World) : World :=
  {| base := base w;
     ext := {| user := user (ext w);
               held := filter (fun k => negb (Nat.eqb m k)) (held (ext w)) |};
     trace := trace w ++ [EvLockerUnlock m] |}.

(** The widget that [super] resolves to, when it resolves. *)
Definition delegate (w : World) : SimpleWidget :=
  match impl (base w) with
  | Some d => Some d
  | None =>
      if implements (SimpleWidgetBase_methods host) (SimpleWidget_methods host)
      then Some BaseSelf
      else None
  end.

(** A command keeps [P] when [P] holds again wherever the command ends:
    on return, on panic and where it blocks. *)
Definition keeps {A} (P : World -> Prop) (c : M A) : Prop :=
  forall w, P w -> P (final (c w)).

(** The host base has seen exactly the delegate that the shim stores. *)
Definition registered_once (w : World) : Prop :=
  idle w /\
  registrations (trace w) =
    match impl (base w) with Some d => [d] | None => [] end.

(** A command frames the base when, wherever it ends, the struct's fields
    are as before and nothing was forwarded to the host base. *)
Definition frames {A} (c : M A) : Prop :=
  forall w,
    base (final (c w)) = base w /\
    registrations (trace (final (c w))) = registrations (trace w).

(** A property that only looks at the struct and at what the host base saw. *)
Definition base_only (P : World -> Prop) : Prop :=
  forall w w',
    base w' = base w ->
    registrations (trace w') = registrations (trace w) ->
    P w -> P w'.

(** [ExtendBaseWidget] called with each widget of [wids] in turn. *)
Fixpoint register_all (wids : list SimpleWidget) : Client :=
  match wids with
  | [] => Finish
  | wid :: rest => CallExtendBaseWidget wid (register_all rest)
  end.

(** A command respects [I], [E] and [B] when, started where [I] holds, it
    returns where [I] holds again, panics only with a fault in [E] and
    blocks only where [B] holds. *)
Definition respects {A} (I : World -> Prop) (E : Fault -> Prop)
           (B : World -> Prop) (c : M A) : Prop :=
  forall w,
    I w ->
    match c w with
    | Ok _ w' => I w'
    | Panic e _ => E e
    | Blocked w' => B w'
    end.

(** The faults that a caller's program can end with: a panic of the
    caller's own code, the unlock of a lock that is not held, and the
    failed assertion in [super] when the toolkit's base widget lacks a
    method. *)
Definition expected_fault (e : Fault) : Prop :=
  e = UserPanic \/
  e = UnlockOfUnlocked \/
  (e = TypeAssertionFault /\
   implements (SimpleWidgetBase_methods host) (SimpleWidget_methods host) = false).

(** Some caller-supplied lock is held. *)
Definition caller_lock_held (w : World) : Prop := held (ext w) <> [].

End Model.

Arguments Panic {U A} e w.
Arguments Blocked {U A} w.
Arguments register_all {U} wids.

Notation "x <- c ;; k" := (bind c (fun x => k))
  (at level 61, c at next level, right associativity).

(** ** A sample widget

    A widget with one counter as its state, built on the base and
    registered as [Derived 1]. *)

Definition ExSize : Type := (nat * nat)%type.
Definition ExObject : Type := string.

(** Modelled from the spec: [newSimpleRenderer] and the renderer type it
    returns are in a file of the package that is not at hand; the spec
    says that the renderer wraps the objects and the resize callback that
    it is given. *)
Record ExRenderer : Type := {
  rWidget : SimpleWidget;
  rObjects : list ExObject;
  rLayout : Layout nat ExSize
}.

Definition ex_bump : M nat unit :=
  user_step (fun x => Some {| user := S (user x); held := held x |}).

(** Widget 1 renders a label and an icon; widget 0 panics in [Render]. *)
Definition ex_Render (id : nat) (x : Ext nat)
  : option ((list ExObject * Layout nat ExSize) * Ext nat) :=
  match id with
  | O => None
  | S _ => Some ((["label"; "icon"]%string, fun _ : ExSize => ex_bump), x)
  end.

Definition ex_ext : Ext nat := {| user := 0; held := [] |}.

Definition ex_fresh : World nat := fresh ex_ext.

Definition ex_registered : World nat :=
  {| base := {| propertyLock := unlocked; impl := Some (Derived 1) |};
     ext := ex_ext;
     trace := [EvRLock; EvRUnlock; EvBaseExtend (Some (Derived 1));
               EvLock; EvStoreImpl (Some (Derived 1)); EvUnlock] |}.

(** The sample widget after [ex_bump]. *)
Definition ex_bumped (w : World nat) : World nat :=
  {| base := base w;
     ext := {| user := S (user (ext w)); held := held (ext w) |};
     trace := trace w |}.

(** A mutator that changes the counter and then panics. *)
Definition ex_bump_then_panic : M nat unit :=
  bind ex_bump (fun _ => panic UserPanic).

(** A mutator that lets go of every lock of the caller. *)
Definition ex_release_all : M nat unit :=
  user_step (fun x => Some {| user := user x; held := [] |}).

(** The sample widget with widget 0, whose [Render] panics, as delegate. *)
Definition ex_registered_0 : World nat :=
  {| base := {| propertyLock := unlocked; impl := Some (Derived 0) |};
     ext := ex_ext;
     trace := [] |}.

(** A caller that takes lock 3 and panics in the mutator. *)
Definition ex_failing_client : Client nat :=
  CallSetStateSafe 3 (UserStep (fun _ => None) (Finish nat)) (Finish nat).

(** * Properties

    The toolkit, the other widgets' [Render] methods and the renderer
    constructor are arbitrary throughout. *)
Section Properties.

Variable U : Type.
Variable Size : Type.
Variable CanvasObject : Type.
Variable host : HostToolkit.
Variable derived_Render :
  nat -> Ext U -> option ((list CanvasObject * Layout U Size) * Ext U).
Variable WidgetRenderer : Type.
Variable newSimpleRenderer :
  SimpleWidget -> list CanvasObject -> Layout U Size -> WidgetRenderer.

(** Running a caller's program against this toolkit and these widgets. *)
Local Abbreviation exec := (run host derived_Render newSimpleRenderer).
Local Abbreviation make_renderer :=
  (CreateRenderer host derived_Render newSimpleRenderer).

(** ** Reading the delegate *)

Ltac unfold_prims :=
  cbv [getImpl super ExtendBaseWidget SetState SetStateSafe CreateRenderer
       Render call_Render call_Refresh BaseWidget_ExtendBaseWidget
       assert_SimpleWidget_of_s with_defer user_step
       propertyLock_RLock propertyLock_RUnlock propertyLock_Lock
       propertyLock_Unlock load_impl store_impl Locker_Lock Locker_Unlock
       bind ret panic emit set_base set_ext set_propertyLock set_impl logged locked released
       final base ext trace propertyLock impl writer readers].

Lemma trace_snoc2 (tr : list Event) (a b : Event) :
  (tr ++ [a]) ++ [b] = tr ++ [a; b].
Proof. now rewrite <- app_assoc. Qed.

Lemma getImpl_returns (w : World U) :
  writer (propertyLock (base w)) = false ->
  getImpl w = Ok (impl (base w)) (logged [EvRLock; EvRUnlock] w).
Proof.
  destruct w as [[[wr rd] i] x tr]; simpl; intros ->.
  unfold_prims. rewrite trace_snoc2. destruct i; reflexivity.
Qed.

Lemma getImpl_blocks (w : World U) :
  writer (propertyLock (base w)) = true -> getImpl w = Blocked w.
Proof.
  destruct w as [[[wr rd] i] x tr]; simpl; intros ->. reflexivity.
Qed.

Lemma super_returns (w : World U) :
  writer (propertyLock (base w)) = false ->
  super host w =
    match delegate host w with
    | Some d => Ok (Some d) (logged [EvRLock; EvRUnlock] w)
    | None => Panic TypeAssertionFault (logged [EvRLock; EvRUnlock] w)
    end.
Proof.
  intros Hw. unfold super, bind. rewrite (getImpl_returns w Hw).
  unfold delegate, assert_SimpleWidget_of_s.
  destruct (impl (base w)); [reflexivity|].
  destruct (implements _ _); reflexivity.
Qed.

Lemma ExtendBaseWidget_first (wid : SimpleWidget) (w : World U) :
  idle w -> impl (base w) = None ->
  ExtendBaseWidget wid w =
    Ok tt {| base := {| propertyLock := unlocked; impl := wid |};
             ext := ext w;
             trace := trace w ++ [EvRLock; EvRUnlock; EvBaseExtend wid;
                                  EvLock; EvStoreImpl wid; EvUnlock] |}.
Proof.
  destruct w as [[l i] x tr]; unfold idle; simpl; intros -> ->.
  unfold_prims. unfold unlocked. repeat rewrite <- app_assoc. reflexivity.
Qed.

Lemma ExtendBaseWidget_later
      (wid : SimpleWidget) (w : World U) (d : WidgetRef) :
  writer (propertyLock (base w)) = false -> impl (base w) = Some d ->
  ExtendBaseWidget wid w = Ok tt (logged [EvRLock; EvRUnlock] w).
Proof.
  intros Hw Hi. unfold ExtendBaseWidget, bind.
  rewrite (getImpl_returns w Hw), Hi. reflexivity.
Qed.

(** ** What the methods leave alone *)

Lemma registrations_app (a b : list Event) :
  registrations (a ++ b) = registrations a ++ registrations b.
Proof.
  induction a as [|e a IH]; simpl; [reflexivity|].
  destruct e as [ | | | | wid | [d|] | m | m | r | r ]; simpl;
    rewrite ?IH; reflexivity.
Qed.

Lemma observable_app (a b : list Event) :
  filter observable (a ++ b) = filter observable a ++ filter observable b.
Proof. apply filter_app. Qed.

Lemma frames_bind {A B} (c : M U A) (k : A -> M U B) :
  frames c -> (forall a, frames (k a)) -> frames (bind c k).
Proof.
  intros Hc Hk w. unfold bind. destruct (Hc w) as [Hb Hr].
  destruct (c w) as [a w'|e w'|w']; simpl in *; auto.
  destruct (Hk a w') as [Hb' Hr']. split; congruence.
Qed.

Lemma keeps_bind {A B} (P : World U -> Prop) (c : M U A) (k : A -> M U B) :
  keeps P c -> (forall a, keeps P (k a)) -> keeps P (bind c k).
Proof.
  intros Hc Hk w Hw. unfold bind. specialize (Hc w Hw).
  destruct (c w) as [a w'|e w'|w']; simpl in *; auto.
  now apply Hk.
Qed.

Lemma frames_keeps {A} (P : World U -> Prop) (c : M U A) :
  base_only P -> frames c -> keeps P c.
Proof.
  intros HP Hc w Hw. destruct (Hc w) as [Hb Hr]. now apply (HP w).
Qed.

Ltac frame_step :=
  intros [[[wr rd] i] x tr]; unfold_prims; simpl;
  repeat match goal with
         | |- context [match ?t with _ => _ end] =>
             lazymatch t with
             | context [match _ with _ => _ end] => fail
             | _ => destruct t eqn:?; simpl
             end
         end;
  rewrite ?registrations_app; simpl; rewrite ?app_nil_r; auto.

Lemma frames_ret {A} (a : A) : frames (@ret U A a).
Proof. frame_step. Qed.

Lemma frames_panic {A} (e : Fault) : frames (@panic U A e).
Proof. frame_step. Qed.

Lemma frames_getImpl : frames (@getImpl U).
Proof. frame_step. Qed.

Lemma frames_super : frames (@super U host).
Proof. frame_step. Qed.

Lemma frames_call_Refresh (wdgt : SimpleWidget) : frames (@call_Refresh U wdgt).
Proof. frame_step. Qed.

Lemma frames_call_Render (wdgt : SimpleWidget) :
  frames (call_Render derived_Render wdgt).
Proof. frame_step. Qed.

Lemma frames_Render : frames (@Render U Size CanvasObject).
Proof. frame_step. Qed.

Lemma frames_Locker_Lock (m : Locker) : frames (@Locker_Lock U m).
Proof. frame_step. Qed.

Lemma frames_Locker_Unlock (m : Locker) : frames (@Locker_Unlock U m).
Proof. frame_step. Qed.

Lemma frames_user_step (g : Ext U -> option (Ext U)) : frames (user_step g).
Proof. frame_step. Qed.

Lemma frames_CreateRenderer : frames make_renderer.
Proof.
  unfold CreateRenderer. apply frames_bind; [apply frames_super|].
  intros wdgt. apply frames_bind; [apply frames_call_Render|].
  intros [objs layout]. apply frames_ret.
Qed.

Lemma base_only_delegate (d : WidgetRef) :
  base_only (fun w : World U => impl (base w) = Some d).
Proof. intros w w' Hb _ H. now rewrite Hb. Qed.

Lemma base_only_idle : base_only (@idle U).
Proof. intros w w' Hb _ H. unfold idle in *. now rewrite Hb. Qed.

Lemma base_only_registered_once : base_only (@registered_once U).
Proof.
  intros w w' Hb Hr [Hi Hreg]. unfold registered_once, idle in *.
  rewrite Hb, Hr. now split.
Qed.

Lemma ExtendBaseWidget_keeps_delegate (wid : SimpleWidget) (d : WidgetRef) :
  keeps (fun w : World U => impl (base w) = Some d) (ExtendBaseWidget wid).
Proof.
  intros [[[wr rd] i] x tr]; simpl; intros ->.
  destruct wr; reflexivity.
Qed.

Lemma ExtendBaseWidget_keeps_idle (wid : SimpleWidget) :
  keeps (@idle U) (ExtendBaseWidget wid).
Proof.
  intros w Hi. destruct (impl (base w)) as [d|] eqn:Himpl.
  - rewrite (@ExtendBaseWidget_later wid w d); auto.
    now rewrite Hi.
  - rewrite ExtendBaseWidget_first; auto. reflexivity.
Qed.

Lemma ExtendBaseWidget_keeps_registered_once (wid : SimpleWidget) :
  keeps (@registered_once U) (ExtendBaseWidget wid).
Proof.
  intros w [Hi Hreg]. destruct (impl (base w)) as [d|] eqn:Himpl.
  - rewrite (@ExtendBaseWidget_later wid w d); auto; [|now rewrite Hi].
    split; [exact Hi|]. simpl. rewrite registrations_app, Hreg, Himpl.
    apply app_nil_r.
  - rewrite ExtendBaseWidget_first; auto.
    split; [reflexivity|]. simpl. rewrite registrations_app, Hreg.
    destruct wid; reflexivity.
Qed.

(** Whatever a caller does, a property of the struct that registration
    keeps is kept: nothing but [ExtendBaseWidget] writes the fields. *)
Lemma run_keeps (P : World U -> Prop) :
  base_only P ->
  (forall wid, keeps P (ExtendBaseWidget wid)) ->
  forall c : Client U, keeps P (exec c).
Proof.
  intros HP HE.
  assert (Hrefresh : keeps P (wdgt <- super host ;; call_Refresh wdgt)).
  { apply frames_keeps; auto. apply frames_bind;
      [apply frames_super | apply frames_call_Refresh]. }
  induction c as [ | g k IHk | wid k IHk | f IHf k IHk | m f IHf k IHk
                   | k IHk | k IHk | k IHk | k IHk ]; simpl.
  - apply frames_keeps; auto. apply frames_ret.
  - apply keeps_bind; auto. apply frames_keeps; auto. apply frames_user_step.
  - apply keeps_bind; auto.
  - apply keeps_bind; auto. unfold SetState. apply keeps_bind; auto.
  - apply keeps_bind; auto. unfold SetStateSafe.
    apply keeps_bind; [apply frames_keeps; auto; apply frames_Locker_Lock|].
    intros _. apply keeps_bind; auto.
    intros _. apply keeps_bind; auto.
    apply frames_keeps; auto; apply frames_Locker_Unlock.
  - apply keeps_bind; auto. apply frames_keeps; auto. apply frames_CreateRenderer.
  - apply keeps_bind; auto. apply frames_keeps; auto. apply frames_Render.
  - apply keeps_bind; auto. apply frames_keeps; auto. apply frames_super.
  - apply keeps_bind; auto. apply frames_keeps; auto. apply frames_getImpl.
Qed.

Lemma run_keeps_delegate (d : WidgetRef) (c : Client U) :
  keeps (fun w : World U => impl (base w) = Some d) (exec c).
Proof.
  apply run_keeps; [apply base_only_delegate|].
  intros wid. apply ExtendBaseWidget_keeps_delegate.
Qed.

Lemma run_keeps_idle (c : Client U) : keeps (@idle U) (exec c).
Proof.
  apply run_keeps; [apply base_only_idle|].
  intros wid. apply ExtendBaseWidget_keeps_idle.
Qed.

Lemma run_keeps_registered_once (c : Client U) :
  keeps (@registered_once U) (exec c).
Proof.
  apply run_keeps; [apply base_only_registered_once|].
  intros wid. apply ExtendBaseWidget_keeps_registered_once.
Qed.

Lemma idle_not_written (w : World U) :
  idle w -> writer (propertyLock (base w)) = false.
Proof. unfold idle. now intros ->. Qed.

(** ** The delegate reference *)

(** C1. Once a first call [ExtendBaseWidget(d)] has set the delegate, it
    stays [d] for the life of the widget: every later operation of a
    caller, in whatever order and nesting, ends with the delegate still
    [d]; a second call [ExtendBaseWidget(d2)] returns with the struct and
    the caller's state as they were and nothing observable logged; and
    [super] still returns [d]. *)
Theorem delegate_immutable_once_set (w : World U) (d : WidgetRef) :
  idle w -> impl (base w) = None ->
  exists w1,
    ExtendBaseWidget (Some d) w = Ok tt w1 /\
    impl (base w1) = Some d /\
    (forall c : Client U, impl (base (final (exec c w1))) = Some d) /\
    (forall (c : Client U) (w2 : World U),
       exec c w1 = Ok tt w2 ->
       forall d2 : SimpleWidget,
       exists w3,
         ExtendBaseWidget d2 w2 = Ok tt w3 /\
         base w3 = base w2 /\
         ext w3 = ext w2 /\
         filter observable (trace w3) = filter observable (trace w2) /\
         exists w4, super host w3 = Ok (Some d) w4).
Proof.
  intros Hidle Hnone.
  eexists. split; [apply ExtendBaseWidget_first; assumption|].
  set (w1 := Build_World _ _ _).
  assert (H1 : impl (base w1) = Some d) by reflexivity.
  assert (I1 : idle w1) by reflexivity.
  split; [exact H1|]. split.
  - intros c. now apply run_keeps_delegate.
  - intros c w2 Hrun d2.
    assert (H2 : impl (base w2) = Some d).
    { pose proof (@run_keeps_delegate d c w1 H1) as H. now rewrite Hrun in H. }
    assert (I2 : idle w2).
    { pose proof (@run_keeps_idle c w1 I1) as H. now rewrite Hrun in H. }
    exists (logged [EvRLock; EvRUnlock] w2).
    split.
    { apply (@ExtendBaseWidget_later d2 w2 d); auto using idle_not_written. }
    repeat split.
    + simpl. rewrite observable_app. simpl. apply app_nil_r.
    + eexists. rewrite super_returns by (simpl; auto using idle_not_written).
      unfold delegate. simpl. rewrite H2. reflexivity.
Qed.

(** A nil argument registers nothing: the delegate is as unset as before. *)
Remark ExtendBaseWidget_nil (w : World U) :
  idle w -> impl (base w) = None ->
  impl (base (final (ExtendBaseWidget None w))) = None.
Proof.
  intros Hi Hn. rewrite ExtendBaseWidget_first; auto.
Qed.

(** C2. [super] returns the registered delegate when there is one; when
    there is none and [*SimpleWidgetBase] has the methods of [SimpleWidget],
    it returns the base object itself. *)
Theorem super_resolves (w : World U) :
  writer (propertyLock (base w)) = false ->
  (forall d : WidgetRef,
     impl (base w) = Some d ->
     super host w = Ok (Some d) (logged [EvRLock; EvRUnlock] w)) /\
  (impl (base w) = None ->
   implements (SimpleWidgetBase_methods host) (SimpleWidget_methods host) = true ->
   super host w = Ok (Some BaseSelf) (logged [EvRLock; EvRUnlock] w)).
Proof.
  intros Hw. rewrite (super_returns w Hw). unfold delegate. split.
  - intros d ->. reflexivity.
  - intros -> ->. reflexivity.
Qed.

(** ** Rendering *)

(** C4. The default [Render] returns no canvas objects and a layout
    function that, for every size, returns without any effect. *)
Theorem Render_default (w : World U) :
  exists layout : Layout U Size,
    Render Size CanvasObject w = Ok ([], layout) w /\
    forall (size : Size) (w' : World U), layout size w' = Ok tt w'.
Proof.
  eexists. split; [reflexivity|]. reflexivity.
Qed.

Lemma call_Render_returns (d : WidgetRef) (w w1 : World U)
      (r : list CanvasObject * Layout U Size) :
  call_Render derived_Render (Some d) w = Ok r w1 ->
  base w1 = base w /\ trace w1 = trace w ++ [EvRender d].
Proof.
  destruct w as [b x tr]. destruct d as [|id]; unfold_prims.
  - intros H. inversion H. auto.
  - destruct (derived_Render id x) as [[r' x']|]; intros H; inversion H. auto.
Qed.

(** C7. [CreateRenderer] only delegates: it resolves the delegate, calls
    that delegate's [Render] once, and returns [newSimpleRenderer] applied
    to the delegate and to exactly the objects and the layout function that
    this call returned, in the world that this call left. *)
Theorem CreateRenderer_delegates
        (w w1 : World U) (d : WidgetRef)
        (objs : list CanvasObject) (layout : Layout U Size) :
  writer (propertyLock (base w)) = false ->
  delegate host w = Some d ->
  call_Render derived_Render (Some d) (logged [EvRLock; EvRUnlock] w)
    = Ok (objs, layout) w1 ->
  make_renderer w = Ok (newSimpleRenderer (Some d) objs layout) w1 /\
  base w1 = base w /\
  trace w1 = trace w ++ [EvRLock; EvRUnlock; EvRender d] /\
  List.length (filter is_render (trace w1)) =
    S (List.length (filter is_render (trace w))).
Proof.
  intros Hw Hd Hr.
  destruct (call_Render_returns _ _ Hr) as [Hb Ht]. simpl in Hb, Ht.
  repeat split; auto.
  - unfold CreateRenderer, bind. rewrite (super_returns w Hw), Hd.
    unfold bind in Hr. rewrite Hr. reflexivity.
  - rewrite Ht, <- app_assoc. reflexivity.
  - rewrite Ht, <- app_assoc, filter_app, length_app. simpl. lia.
Qed.

(** C10. With no delegate registered, [CreateRenderer] builds the renderer
    from the default [Render]: no child objects and a layout function that
    does nothing for every size. *)
Theorem CreateRenderer_default (w : World U) :
  writer (propertyLock (base w)) = false ->
  impl (base w) = None ->
  implements (SimpleWidgetBase_methods host) (SimpleWidget_methods host) = true ->
  exists layout : Layout U Size,
    make_renderer w =
      Ok (newSimpleRenderer (Some BaseSelf) [] layout)
         (logged [EvRLock; EvRUnlock; EvRender BaseSelf] w) /\
    forall (size : Size) (w' : World U), layout size w' = Ok tt w'.
Proof.
  intros Hw Hn Hi. eexists. split.
  - unfold CreateRenderer, bind. rewrite (super_returns w Hw).
    unfold delegate. rewrite Hn, Hi. destruct w as [b x tr].
    unfold_prims. rewrite <- app_assoc. reflexivity.
  - reflexivity.
Qed.

(** ** Changing state *)

Lemma refresh_after (w : World U) (d : WidgetRef) :
  writer (propertyLock (base w)) = false ->
  delegate host w = Some d ->
  (wdgt <- super host ;; call_Refresh wdgt) w =
    Ok tt (logged [EvRLock; EvRUnlock; EvRefresh d] w).
Proof.
  intros Hw Hd. unfold bind. rewrite (super_returns w Hw), Hd.
  destruct w as [b x tr]. unfold_prims. now rewrite <- app_assoc.
Qed.

Lemma is_held_locked (m : Locker) (w : World U) :
  is_held m (ext (locked m w)) = true.
Proof. unfold is_held. simpl. now rewrite Nat.eqb_refl. Qed.

Lemma is_held_released (m : Locker) (w : World U) :
  is_held m (ext (released m w)) = false.
Proof.
  unfold is_held. simpl. induction (held (ext w)) as [|k l IH]; simpl; auto.
  destruct (Nat.eqb m k) eqn:E; simpl; auto. now rewrite E.
Qed.

Lemma Locker_Lock_free (m : Locker) (w : World U) :
  is_held m (ext w) = false -> Locker_Lock m w = Ok tt (locked m w).
Proof. intros H. unfold Locker_Lock. now rewrite H. Qed.

Lemma Locker_Unlock_held (m : Locker) (w : World U) :
  is_held m (ext w) = true -> Locker_Unlock m w = Ok tt (released m w).
Proof. intros H. unfold Locker_Unlock. now rewrite H. Qed.

(** C5. [SetState(f)] runs [f] in the world it was called in, taking no
    lock before or during it, and once [f] has returned it notifies the
    resolved delegate of exactly one refresh, whatever [f] changed. *)
Theorem SetState_refreshes_once
        (f : M U unit) (w w1 : World U) (d : WidgetRef) :
  f w = Ok tt w1 ->
  writer (propertyLock (base w1)) = false ->
  delegate host w1 = Some d ->
  SetState host f w = Ok tt (logged [EvRLock; EvRUnlock; EvRefresh d] w1) /\
  List.length (filter is_refresh (trace (final (SetState host f w)))) =
    S (List.length (filter is_refresh (trace w1))) /\
  ext (final (SetState host f w)) = ext w1.
Proof.
  intros Hf Hw Hd.
  assert (E : SetState host f w =
              Ok tt (logged [EvRLock; EvRUnlock; EvRefresh d] w1)).
  { unfold SetState, bind at 1. rewrite Hf. now apply refresh_after. }
  rewrite E. simpl. repeat split.
  rewrite filter_app, length_app. simpl. lia.
Qed.

(** C6. [SetStateSafe(m, f)] locks [m], runs [f], unlocks [m] and then
    notifies the resolved delegate of one refresh, in this order: the
    refresh is logged after the unlock, in a world where [m] is free. *)
Theorem SetStateSafe_sequence
        (m : Locker) (f : M U unit) (w w1 : World U) (d : WidgetRef) :
  is_held m (ext w) = false ->
  f (locked m w) = Ok tt w1 ->
  is_held m (ext w1) = true ->
  writer (propertyLock (base w1)) = false ->
  delegate host w1 = Some d ->
  SetStateSafe host m f w =
    Ok tt (logged [EvRLock; EvRUnlock; EvRefresh d] (released m w1)) /\
  trace (final (SetStateSafe host m f w)) =
    trace w1 ++ [EvLockerUnlock m; EvRLock; EvRUnlock; EvRefresh d] /\
  is_held m (ext (final (SetStateSafe host m f w))) = false.
Proof.
  intros Hfree Hf Hheld Hw Hd.
  assert (E : SetStateSafe host m f w =
              Ok tt (logged [EvRLock; EvRUnlock; EvRefresh d] (released m w1))).
  { unfold SetStateSafe, bind at 1. rewrite (Locker_Lock_free m w Hfree).
    unfold bind at 1. rewrite Hf.
    unfold bind at 1. rewrite (Locker_Unlock_held m w1 Hheld).
    now apply refresh_after. }
  rewrite E. repeat split.
  - simpl. now rewrite <- app_assoc.
  - apply is_held_released.
Qed.

(** C9. When [f] panics, [SetStateSafe(m, f)] ends right there, in the
    world in which [f] panicked: [m], locked before [f] ran, is not
    unlocked and no refresh is notified; [SetState(f)] notifies no refresh
    either. *)
Theorem mutator_panic_skips_unlock_and_refresh (m : Locker) (w : World U) :
  (forall (f : M U unit) (e : Fault) (w1 : World U),
     is_held m (ext w) = false ->
     f (locked m w) = Panic e w1 ->
     SetStateSafe host m f w = Panic e w1) /\
  (is_held m (ext w) = false ->
   SetStateSafe host m (panic UserPanic) w = Panic UserPanic (locked m w) /\
   is_held m (ext (locked m w)) = true /\
   trace (locked m w) = trace w ++ [EvLockerLock m]) /\
  (forall (f : M U unit) (e : Fault) (w1 : World U),
     f w = Panic e w1 ->
     SetState host f w = Panic e w1).
Proof.
  split; [|split].
  - intros f e w1 Hfree Hf. unfold SetStateSafe, bind at 1.
    rewrite (Locker_Lock_free m w Hfree). unfold bind at 1. now rewrite Hf.
  - intros Hfree. split; [|split; [apply is_held_locked | reflexivity]].
    unfold SetStateSafe, bind at 1.
    rewrite (Locker_Lock_free m w Hfree). reflexivity.
  - intros f e w1 Hf. unfold SetState, bind at 1. now rewrite Hf.
Qed.

(** ** Registration and the host base *)

(** C8. With no delegate set, [ExtendBaseWidget(wid)] hands [wid] to the
    host's [BaseWidget.ExtendBaseWidget] once and stores it afterwards;
    with a delegate set it makes no host call at all.  So, whatever callers
    do with a new widget, the host base has seen at most one widget, the
    one that the shim stores. *)
Theorem ExtendBaseWidget_forwards_once (wid : SimpleWidget) (w : World U) :
  idle w ->
  (impl (base w) = None ->
   ExtendBaseWidget wid w =
     Ok tt {| base := {| propertyLock := unlocked; impl := wid |};
              ext := ext w;
              trace := trace w ++ [EvRLock; EvRUnlock; EvBaseExtend wid;
                                   EvLock; EvStoreImpl wid; EvUnlock] |}) /\
  (forall d : WidgetRef,
     impl (base w) = Some d ->
     ExtendBaseWidget wid w = Ok tt (logged [EvRLock; EvRUnlock] w)) /\
  (forall (x : Ext U) (c : Client U),
     registrations (trace (final (exec c (fresh x)))) =
       match impl (base (final (exec c (fresh x)))) with
       | Some d => [d]
       | None => []
       end).
Proof.
  intros Hi. repeat split.
  - intros Hn. now apply ExtendBaseWidget_first.
  - intros d Hd.
    apply (@ExtendBaseWidget_later wid w d); auto using idle_not_written.
  - intros x c.
    assert (H0 : registered_once (fresh x)) by (split; reflexivity).
    apply (@run_keeps_registered_once c (fresh x) H0).
Qed.

(** ** How the setters compose and fail *)

Lemma SetStateSafe_returns
      (m : Locker) (f : M U unit) (w w1 : World U) (d : WidgetRef) :
  is_held m (ext w) = false ->
  f (locked m w) = Ok tt w1 ->
  is_held m (ext w1) = true ->
  writer (propertyLock (base w1)) = false ->
  delegate host w1 = Some d ->
  SetStateSafe host m f w =
    Ok tt (logged [EvRLock; EvRUnlock; EvRefresh d] (released m w1)).
Proof.
  intros Hfree Hf Hheld Hw Hd.
  unfold SetStateSafe, bind at 1. rewrite (Locker_Lock_free m w Hfree).
  unfold bind at 1. rewrite Hf.
  unfold bind at 1. rewrite (Locker_Unlock_held m w1 Hheld).
  now apply refresh_after.
Qed.

Lemma filter_not_held (m : Locker) (l : list Locker) :
  existsb (Nat.eqb m) l = false ->
  filter (fun k => negb (Nat.eqb m k)) l = l.
Proof.
  induction l as [|k l IH]; simpl; [reflexivity|].
  destruct (Nat.eqb m k); simpl; [discriminate|].
  intros H. now rewrite IH.
Qed.

Lemma is_held_released_other (m k : Locker) (w : World U) :
  k <> m -> is_held k (ext (released m w)) = is_held k (ext w).
Proof.
  intros Hne. unfold is_held. simpl.
  induction (held (ext w)) as [|j l IH]; simpl; [reflexivity|].
  destruct (Nat.eqb m j) eqn:E; simpl.
  - apply Nat.eqb_eq in E. subst j.
    destruct (Nat.eqb k m) eqn:E'; [apply Nat.eqb_eq in E'; contradiction|].
    exact IH.
  - now rewrite IH.
Qed.

(** X1. [SetStateSafe] is not re-entrant on its lock: called while [m] is
    held it blocks at once, with the mutator not run; so a mutator that
    calls [SetStateSafe] with the same lock blocks for ever, with [m] held
    and the inner mutator never run. *)
Theorem SetStateSafe_not_reentrant (m : Locker) (f g : M U unit) (w : World U) :
  (is_held m (ext w) = true -> SetStateSafe host m f w = Blocked w) /\
  (is_held m (ext w) = false ->
   SetStateSafe host m (SetStateSafe host m g) w = Blocked (locked m w) /\
   is_held m (ext (locked m w)) = true).
Proof.
  split.
  - intros Hheld. unfold SetStateSafe, bind at 1, Locker_Lock.
    now rewrite Hheld.
  - intros Hfree. split; [|apply is_held_locked].
    unfold SetStateSafe at 1, bind at 1.
    rewrite (Locker_Lock_free m w Hfree). unfold bind at 1.
    unfold SetStateSafe, bind at 1, Locker_Lock.
    now rewrite is_held_locked.
Qed.

(** X2. When the mutator returns with [m] no longer held, the unlock in
    [SetStateSafe] faults, in the world the mutator left: no refresh is
    notified. *)
Theorem SetStateSafe_mutator_released_lock
        (m : Locker) (f : M U unit) (w w1 : World U) :
  is_held m (ext w) = false ->
  f (locked m w) = Ok tt w1 ->
  is_held m (ext w1) = false ->
  SetStateSafe host m f w = Panic UnlockOfUnlocked w1.
Proof.
  intros Hfree Hf Hrel.
  unfold SetStateSafe, bind at 1. rewrite (Locker_Lock_free m w Hfree).
  unfold bind at 1. rewrite Hf.
  unfold bind at 1, Locker_Unlock. now rewrite Hrel.
Qed.

(** X3. When the mutator leaves the caller's locks as they were,
    [SetStateSafe] ends with exactly the locks held that were held when it
    was called. *)
Theorem SetStateSafe_restores_locks
        (m : Locker) (f : M U unit) (w w1 : World U) (d : WidgetRef) :
  is_held m (ext w) = false ->
  f (locked m w) = Ok tt w1 ->
  held (ext w1) = held (ext (locked m w)) ->
  writer (propertyLock (base w1)) = false ->
  delegate host w1 = Some d ->
  held (ext (final (SetStateSafe host m f w))) = held (ext w).
Proof.
  intros Hfree Hf Hsame Hw Hd.
  assert (Hheld : is_held m (ext w1) = true).
  { unfold is_held. rewrite Hsame. apply is_held_locked. }
  rewrite (SetStateSafe_returns m f w Hfree Hf Hheld Hw Hd).
  simpl. rewrite Hsame. simpl. rewrite Nat.eqb_refl. simpl.
  now apply filter_not_held.
Qed.

(** X4. A mutator that itself calls [SetState] makes the delegate see two
    refreshes, the inner one first. *)
Theorem SetState_nested_refreshes_twice
        (g : M U unit) (w w1 : World U) (d : WidgetRef) :
  g w = Ok tt w1 ->
  writer (propertyLock (base w1)) = false ->
  delegate host w1 = Some d ->
  SetState host (SetState host g) w =
    Ok tt (logged [EvRLock; EvRUnlock; EvRefresh d;
                   EvRLock; EvRUnlock; EvRefresh d] w1).
Proof.
  intros Hg Hw Hd.
  unfold SetState at 1, bind at 1.
  unfold SetState at 1, bind at 1. rewrite Hg.
  rewrite (refresh_after w1 Hw Hd).
  rewrite refresh_after with (d := d) by (simpl; assumption).
  unfold logged. simpl. now rewrite <- app_assoc.
Qed.

(** X5. [SetState] resolves the delegate after the mutator has run: when
    the mutator registers [d] on a widget that had no delegate, the
    refresh goes to [d]. *)
Theorem SetState_registering_mutator (w : World U) (d : WidgetRef) :
  idle w -> impl (base w) = None ->
  SetState host (ExtendBaseWidget (Some d)) w =
    Ok tt {| base := {| propertyLock := unlocked; impl := Some d |};
             ext := ext w;
             trace := trace w ++ [EvRLock; EvRUnlock; EvBaseExtend (Some d);
                                  EvLock; EvStoreImpl (Some d); EvUnlock;
                                  EvRLock; EvRUnlock; EvRefresh d] |}.
Proof.
  intros Hi Hn. unfold SetState, bind at 1.
  rewrite (@ExtendBaseWidget_first (Some d) w Hi Hn).
  rewrite refresh_after with (d := d) by reflexivity.
  unfold logged. simpl. now rewrite <- app_assoc.
Qed.

(** X6. When the delegate's [Render] panics, [CreateRenderer] panics with
    it and builds no renderer; the struct is as it was, its lock free. *)
Theorem CreateRenderer_Render_panics (w : World U) (id : nat) :
  writer (propertyLock (base w)) = false ->
  impl (base w) = Some (Derived id) ->
  derived_Render id (ext w) = None ->
  make_renderer w =
    Panic UserPanic (logged [EvRLock; EvRUnlock; EvRender (Derived id)] w).
Proof.
  intros Hw Hi Hr. unfold CreateRenderer, bind at 1.
  rewrite (super_returns w Hw). unfold delegate. rewrite Hi.
  destruct w as [b x tr]. simpl in Hr. unfold_prims. rewrite Hr.
  now rewrite <- app_assoc.
Qed.

(** X7. Two nested [SetStateSafe] calls with different locks: the inner
    refresh is notified while the outer lock is still held, the outer one
    after both are free. *)
Theorem SetStateSafe_nested_locks
        (m1 m2 : Locker) (g : M U unit) (w w1 : World U) (d : WidgetRef) :
  m1 <> m2 ->
  is_held m1 (ext w) = false ->
  is_held m2 (ext w) = false ->
  g (locked m2 (locked m1 w)) = Ok tt w1 ->
  is_held m1 (ext w1) = true ->
  is_held m2 (ext w1) = true ->
  writer (propertyLock (base w1)) = false ->
  delegate host w1 = Some d ->
  SetStateSafe host m1 (SetStateSafe host m2 g) w =
    Ok tt (logged [EvRLock; EvRUnlock; EvRefresh d]
             (released m1
                (logged [EvRLock; EvRUnlock; EvRefresh d] (released m2 w1)))) /\
  is_held m1 (ext (logged [EvRLock; EvRUnlock; EvRefresh d] (released m2 w1)))
    = true /\
  held (ext (final (SetStateSafe host m1 (SetStateSafe host m2 g) w))) =
    filter (fun k => negb (Nat.eqb m1 k))
           (filter (fun k => negb (Nat.eqb m2 k)) (held (ext w1))).
Proof.
  intros Hne H1 H2 Hg Hh1 Hh2 Hw Hd.
  assert (H2' : is_held m2 (ext (locked m1 w)) = false).
  { unfold is_held in *. simpl. rewrite H2.
    destruct (Nat.eqb m2 m1) eqn:E; [|reflexivity].
    apply Nat.eqb_eq in E. congruence. }
  pose proof (SetStateSafe_returns m2 g (locked m1 w) H2' Hg Hh2 Hw Hd) as Hin.
  assert (Hh1' : is_held m1 (ext (logged [EvRLock; EvRUnlock; EvRefresh d]
                                         (released m2 w1))) = true).
  { change (is_held m1 (ext (released m2 w1)) = true).
    now rewrite is_held_released_other. }
  assert (E : SetStateSafe host m1 (SetStateSafe host m2 g) w =
              Ok tt (logged [EvRLock; EvRUnlock; EvRefresh d]
                       (released m1
                          (logged [EvRLock; EvRUnlock; EvRefresh d]
                                  (released m2 w1))))).
  { apply SetStateSafe_returns; auto. }
  rewrite E. repeat split; auto.
Qed.

(** ** Registering several times *)

Lemma host_calls_app (a b : list Event) :
  host_calls (a ++ b) = host_calls a ++ host_calls b.
Proof.
  induction a as [|e a IH]; simpl; [reflexivity|].
  destruct e; simpl; rewrite ?IH; reflexivity.
Qed.

Lemma register_all_later (wids : list SimpleWidget) :
  forall (w : World U) (d : WidgetRef),
    idle w -> impl (base w) = Some d ->
    exists w',
      exec (register_all wids) w = Ok tt w' /\
      base w' = base w /\
      ext w' = ext w /\
      host_calls (trace w') = host_calls (trace w).
Proof.
  induction wids as [|wid rest IH]; intros w d Hi Hd; simpl.
  - exists w. repeat split.
  - unfold bind.
    rewrite (@ExtendBaseWidget_later wid w d) by auto using idle_not_written.
    destruct (IH (logged [EvRLock; EvRUnlock] w) d Hi Hd)
      as (w' & Hrun & Hb & Hx & Hc).
    exists w'. repeat split; auto.
    rewrite Hc. simpl. rewrite host_calls_app. apply app_nil_r.
Qed.

(** X8. Of several registrations on a widget that has no delegate, the
    first non-nil one wins: the delegate ends as the first non-nil
    argument, the host base is called for every argument up to and
    including that one and for none after it, and the caller's state is
    untouched. *)
Theorem first_registration_wins (wids : list SimpleWidget) :
  forall w : World U,
    idle w -> impl (base w) = None ->
    exists w',
      exec (register_all wids) w = Ok tt w' /\
      impl (base w') = first_set wids /\
      idle w' /\
      ext w' = ext w /\
      host_calls (trace w') = host_calls (trace w) ++ upto_first_set wids.
Proof.
  induction wids as [|[d|] rest IH]; intros w Hi Hn; simpl.
  - exists w. repeat split; auto. now rewrite app_nil_r.
  - unfold bind. rewrite (@ExtendBaseWidget_first (Some d) w Hi Hn).
    set (w1 := Build_World _ _ _).
    destruct (@register_all_later rest w1 d) as (w' & Hrun & Hb & Hx & Hc);
      [reflexivity | reflexivity |].
    exists w'. repeat split; auto.
    + now rewrite Hb.
    + unfold idle. now rewrite Hb.
    + rewrite Hc. unfold w1. simpl. now rewrite host_calls_app.
  - unfold bind. rewrite (@ExtendBaseWidget_first None w Hi Hn).
    set (w1 := Build_World _ _ _).
    destruct (IH w1) as (w' & Hrun & Hf & Hi' & Hx & Hc);
      [reflexivity | reflexivity |].
    exists w'. repeat split; auto.
    rewrite Hc. unfold w1. simpl. rewrite host_calls_app. simpl.
    now rewrite <- app_assoc.
Qed.

(** ** What a caller's program can end in *)

Local Abbreviation base_safe :=
  (respects (@idle U) (expected_fault host) (@caller_lock_held U)).

Lemma respects_bind {A B} (I : World U -> Prop) (E : Fault -> Prop)
      (Bl : World U -> Prop) (c : M U A) (k : A -> M U B) :
  respects I E Bl c -> (forall a, respects I E Bl (k a)) ->
  respects I E Bl (bind c k).
Proof.
  intros Hc Hk w Hw. unfold bind. specialize (Hc w Hw).
  destruct (c w) as [a w'|e w'|w']; auto. now apply Hk.
Qed.

Lemma delegate_none (w : World U) :
  delegate host w = None ->
  implements (SimpleWidgetBase_methods host) (SimpleWidget_methods host) = false.
Proof.
  unfold delegate. destruct (impl (base w)); [discriminate|].
  destruct (implements _ _); [discriminate | reflexivity].
Qed.

Lemma base_safe_ret {A} (a : A) : base_safe (@ret U A a).
Proof. intros w Hi. exact Hi. Qed.

Lemma base_safe_user_step (g : Ext U -> option (Ext U)) : base_safe (user_step g).
Proof.
  intros w Hi. unfold user_step. destruct (g (ext w)); [exact Hi|].
  now left.
Qed.

Lemma base_safe_ExtendBaseWidget (wid : SimpleWidget) :
  base_safe (@ExtendBaseWidget U wid).
Proof.
  intros w Hi. destruct (impl (base w)) as [d|] eqn:Himpl.
  - rewrite (@ExtendBaseWidget_later wid w d); auto using idle_not_written.
  - rewrite ExtendBaseWidget_first; auto. reflexivity.
Qed.

Lemma base_safe_getImpl : base_safe (@getImpl U).
Proof.
  intros w Hi. rewrite getImpl_returns by auto using idle_not_written.
  exact Hi.
Qed.

Lemma base_safe_super : base_safe (@super U host).
Proof.
  intros w Hi. rewrite super_returns by auto using idle_not_written.
  destruct (delegate host w) eqn:Hd; [exact Hi|].
  right; right. split; [reflexivity | now apply (delegate_none w)].
Qed.

Lemma base_safe_refresh : base_safe (wdgt <- super host ;; call_Refresh wdgt).
Proof.
  intros w Hi. destruct (delegate host w) as [d|] eqn:Hd.
  - rewrite (refresh_after w (idle_not_written Hi) Hd). exact Hi.
  - unfold bind. rewrite super_returns by auto using idle_not_written.
    rewrite Hd. right; right.
    split; [reflexivity | now apply (delegate_none w)].
Qed.

Lemma base_safe_Locker_Lock (m : Locker) : base_safe (@Locker_Lock U m).
Proof.
  intros w Hi. unfold Locker_Lock.
  destruct (is_held m (ext w)) eqn:Hh; [|exact Hi].
  unfold caller_lock_held, is_held in *.
  destruct (held (ext w)); [discriminate | discriminate].
Qed.

Lemma base_safe_Locker_Unlock (m : Locker) : base_safe (@Locker_Unlock U m).
Proof.
  intros w Hi. unfold Locker_Unlock.
  destruct (is_held m (ext w)); [exact Hi|]. right; now left.
Qed.

Lemma base_safe_Render : base_safe (@Render U Size CanvasObject).
Proof. intros w Hi. exact Hi. Qed.

Lemma base_safe_CreateRenderer : base_safe make_renderer.
Proof.
  intros w Hi. unfold CreateRenderer, bind at 1.
  rewrite super_returns by auto using idle_not_written.
  destruct (delegate host w) as [d|] eqn:Hd.
  - destruct w as [b x tr]. destruct d as [|id]; unfold_prims.
    + exact Hi.
    + destruct (derived_Render id x) as [[[objs layout] x']|];
        [exact Hi | now left].
  - right; right. split; [reflexivity | now apply (delegate_none w)].
Qed.

Lemma run_base_safe (c : Client U) : base_safe (exec c).
Proof.
  induction c as [ | g k IHk | wid k IHk | f IHf k IHk | m f IHf k IHk
                   | k IHk | k IHk | k IHk | k IHk ]; simpl.
  - apply base_safe_ret.
  - apply respects_bind; auto using base_safe_user_step.
  - apply respects_bind; auto using base_safe_ExtendBaseWidget.
  - apply respects_bind; auto. unfold SetState.
    apply respects_bind; auto using base_safe_refresh.
  - apply respects_bind; auto. unfold SetStateSafe.
    apply respects_bind; [apply base_safe_Locker_Lock|]. intros _.
    apply respects_bind; [exact IHf|]. intros _.
    apply respects_bind; [apply base_safe_Locker_Unlock|]. intros _.
    apply base_safe_refresh.
  - apply respects_bind; auto using base_safe_CreateRenderer.
  - apply respects_bind; auto using base_safe_Render.
  - apply respects_bind; auto using base_safe_super.
  - apply respects_bind; auto using base_safe_getImpl.
Qed.

(** X9. Whatever a caller's program does and however it ends, by return,
    by panic or blocked, the base's own lock is free at the end; and when
    the program blocks, it blocks on a lock of the caller, one of which is
    then held. *)
Theorem propertyLock_free_on_every_path (c : Client U) (w : World U) :
  idle w ->
  idle (final (exec c w)) /\
  (forall w', exec c w = Blocked w' -> held (ext w') <> []).
Proof.
  intros Hi. split.
  - now apply run_keeps_idle.
  - intros w' Hb. pose proof (@run_base_safe c w Hi) as H.
    rewrite Hb in H. exact H.
Qed.

(** X11. Registering is silent towards the caller: however
    [ExtendBaseWidget] ends and whatever the state of the lock, it has
    notified no refresh, called no [Render] and left the caller's state
    and locks as they were. *)
Theorem ExtendBaseWidget_is_silent (wid : SimpleWidget) (w : World U) :
  ext (final (ExtendBaseWidget wid w)) = ext w /\
  filter is_refresh (trace (final (ExtendBaseWidget wid w)))
  = filter is_refresh (trace w) /\
  filter is_render (trace (final (ExtendBaseWidget wid w)))
  = filter is_render (trace w).
Proof.
  destruct w as [[[wr rd] i] x tr].
  destruct wr, i as [d|], rd as [|n]; unfold_prims;
    repeat rewrite <- app_assoc; rewrite ?filter_app; simpl;
    rewrite ?app_nil_r; auto.
Qed.

Lemma run_faults_expected (c : Client U) (w w' : World U) (e : Fault) :
  idle w -> exec c w = Panic e w' -> expected_fault host e.
Proof.
  intros Hi Hp. pose proof (@run_base_safe c w Hi) as H.
  rewrite Hp in H. exact H.
Qed.

End Properties.

(** ** The type assertion in [super] *)

Lemma super_blocks (U : Type) (host : HostToolkit) (w : World U) :
  writer (propertyLock (base w)) = true -> super host w = Blocked w.
Proof.
  intros Hw. unfold super, bind. now rewrite (getImpl_blocks w Hw).
Qed.

Lemma fyne_v2_base_implements_SimpleWidget :
  implements (SimpleWidgetBase_methods fyne_v2) (SimpleWidget_methods fyne_v2)
  = true.
Proof. reflexivity. Qed.

(** C3, as amended.  With no delegate registered, [super] asserts the base
    object itself, of dynamic type [*SimpleWidgetBase], to [SimpleWidget]:
    under any toolkit the call faults with a type-assertion error exactly
    when that type lacks a method of the interface, and under fyne v2 it
    lacks none, so [super] returns the base object. *)
Theorem super_assertion_on_base (U : Type) (host : HostToolkit) (w : World U) :
  writer (propertyLock (base w)) = false ->
  impl (base w) = None ->
  super host w =
    (if implements (SimpleWidgetBase_methods host) (SimpleWidget_methods host)
     then Ok (Some BaseSelf) (logged [EvRLock; EvRUnlock] w)
     else Panic TypeAssertionFault (logged [EvRLock; EvRUnlock] w)) /\
  super fyne_v2 w = Ok (Some BaseSelf) (logged [EvRLock; EvRUnlock] w).
Proof.
  intros Hw Hn. split.
  - rewrite (super_returns host w Hw). unfold delegate. rewrite Hn.
    destruct (implements _ _); reflexivity.
  - rewrite (super_returns fyne_v2 w Hw). unfold delegate.
    now rewrite Hn, fyne_v2_base_implements_SimpleWidget.
Qed.

(** C3, as stated, fails: under the toolkit that the package imports no
    call of [super] with no delegate registered ends in a type-assertion
    fault. *)
Lemma super_never_faults_on_assertion :
  ~ exists (U : Type) (w w' : World U),
      impl (base w) = None /\
      super fyne_v2 w = Panic TypeAssertionFault w'.
Proof.
  intros (U & w & w' & Hn & H).
  destruct (writer (propertyLock (base w))) eqn:Hw.
  - rewrite (super_blocks fyne_v2 w Hw) in H. discriminate.
  - rewrite (super_returns fyne_v2 w Hw) in H. unfold delegate in H.
    rewrite Hn, fyne_v2_base_implements_SimpleWidget in H. discriminate.
Qed.


(** ** The theorems at the sample widget *)

Lemma delegate_immutable_once_set_witness :
  idle ex_fresh /\
  impl (base ex_fresh) = None /\
  exists w1,
    ExtendBaseWidget (Some (Derived 1)) ex_fresh = Ok tt w1 /\
    impl (base w1) = Some (Derived 1) /\
    (forall c : Client nat,
       impl (base (final (run fyne_v2 ex_Render Build_ExRenderer c w1)))
       = Some (Derived 1)) /\
    (forall (c : Client nat) (w2 : World nat),
       run fyne_v2 ex_Render Build_ExRenderer c w1 = Ok tt w2 ->
       forall d2 : SimpleWidget,
       exists w3,
         ExtendBaseWidget d2 w2 = Ok tt w3 /\
         base w3 = base w2 /\
         ext w3 = ext w2 /\
         filter observable (trace w3) = filter observable (trace w2) /\
         exists w4, super fyne_v2 w3 = Ok (Some (Derived 1)) w4).
Proof.
  split; [reflexivity|]. split; [reflexivity|].
  apply delegate_immutable_once_set; reflexivity.
Defined.

Lemma super_resolves_witness :
  writer (propertyLock (base ex_registered)) = false /\
  super fyne_v2 ex_registered =
    Ok (Some (Derived 1)) (logged [EvRLock; EvRUnlock] ex_registered) /\
  super fyne_v2 ex_fresh =
    Ok (Some BaseSelf) (logged [EvRLock; EvRUnlock] ex_fresh).
Proof.
  split; [reflexivity|]. split.
  - apply (proj1 (super_resolves fyne_v2 ex_registered eq_refl)). reflexivity.
  - apply (proj2 (super_resolves fyne_v2 ex_fresh eq_refl)); reflexivity.
Defined.

Lemma super_assertion_on_base_witness :
  writer (propertyLock (base ex_fresh)) = false /\
  impl (base ex_fresh) = None /\
  super toolkit_without_Refresh ex_fresh =
    Panic TypeAssertionFault (logged [EvRLock; EvRUnlock] ex_fresh) /\
  super fyne_v2 ex_fresh =
    Ok (Some BaseSelf) (logged [EvRLock; EvRUnlock] ex_fresh).
Proof.
  split; [reflexivity|]. split; [reflexivity|].
  exact (super_assertion_on_base toolkit_without_Refresh ex_fresh eq_refl eq_refl).
Defined.

Lemma CreateRenderer_delegates_witness :
  writer (propertyLock (base ex_registered)) = false /\
  delegate fyne_v2 ex_registered = Some (Derived 1) /\
  CreateRenderer fyne_v2 ex_Render Build_ExRenderer ex_registered =
    Ok (Build_ExRenderer (Some (Derived 1)) ["label"; "icon"]%string
                         (fun _ => ex_bump))
       (logged [EvRLock; EvRUnlock; EvRender (Derived 1)] ex_registered).
Proof.
  split; [reflexivity|]. split; [reflexivity|].
  apply (CreateRenderer_delegates fyne_v2 ex_Render Build_ExRenderer
           ex_registered (d := Derived 1)); reflexivity.
Defined.

Lemma CreateRenderer_default_witness :
  writer (propertyLock (base ex_fresh)) = false /\
  impl (base ex_fresh) = None /\
  implements (SimpleWidgetBase_methods fyne_v2) (SimpleWidget_methods fyne_v2) = true /\
  exists layout : Layout nat ExSize,
    CreateRenderer fyne_v2 ex_Render Build_ExRenderer ex_fresh =
      Ok (Build_ExRenderer (Some BaseSelf) [] layout)
         (logged [EvRLock; EvRUnlock; EvRender BaseSelf] ex_fresh) /\
    forall (size : ExSize) (w' : World nat), layout size w' = Ok tt w'.
Proof.
  split; [reflexivity|]. split; [reflexivity|]. split; [reflexivity|].
  apply CreateRenderer_default; reflexivity.
Defined.

Lemma SetState_refreshes_once_witness :
  ex_bump ex_registered = Ok tt (ex_bumped ex_registered) /\
  writer (propertyLock (base (ex_bumped ex_registered))) = false /\
  delegate fyne_v2 (ex_bumped ex_registered) = Some (Derived 1) /\
  SetState fyne_v2 ex_bump ex_registered =
    Ok tt (logged [EvRLock; EvRUnlock; EvRefresh (Derived 1)]
                  (ex_bumped ex_registered)) /\
  List.length (filter is_refresh
                 (trace (final (SetState fyne_v2 ex_bump ex_registered)))) =
    S (List.length (filter is_refresh (trace (ex_bumped ex_registered)))) /\
  ext (final (SetState fyne_v2 ex_bump ex_registered)) =
    ext (ex_bumped ex_registered).
Proof.
  split; [reflexivity|]. split; [reflexivity|]. split; [reflexivity|].
  apply SetState_refreshes_once; reflexivity.
Defined.

Lemma SetStateSafe_sequence_witness :
  is_held 3 (ext ex_registered) = false /\
  ex_bump (locked 3 ex_registered) = Ok tt (ex_bumped (locked 3 ex_registered)) /\
  is_held 3 (ext (ex_bumped (locked 3 ex_registered))) = true /\
  SetStateSafe fyne_v2 3 ex_bump ex_registered =
    Ok tt (logged [EvRLock; EvRUnlock; EvRefresh (Derived 1)]
                  (released 3 (ex_bumped (locked 3 ex_registered)))) /\
  trace (final (SetStateSafe fyne_v2 3 ex_bump ex_registered)) =
    trace (ex_bumped (locked 3 ex_registered))
    ++ [EvLockerUnlock 3; EvRLock; EvRUnlock; EvRefresh (Derived 1)] /\
  is_held 3 (ext (final (SetStateSafe fyne_v2 3 ex_bump ex_registered))) = false.
Proof.
  split; [reflexivity|]. split; [reflexivity|]. split; [reflexivity|].
  apply SetStateSafe_sequence; reflexivity.
Defined.

Lemma mutator_panic_skips_unlock_and_refresh_witness :
  is_held 3 (ext ex_registered) = false /\
  SetStateSafe fyne_v2 3 ex_bump_then_panic ex_registered =
    Panic UserPanic (ex_bumped (locked 3 ex_registered)) /\
  is_held 3 (ext (ex_bumped (locked 3 ex_registered))) = true /\
  SetState fyne_v2 ex_bump_then_panic ex_registered =
    Panic UserPanic (ex_bumped ex_registered).
Proof.
  split; [reflexivity|]. split; [|split; [reflexivity|]].
  - apply (proj1 (mutator_panic_skips_unlock_and_refresh fyne_v2 3 ex_registered));
      reflexivity.
  - apply (proj2 (proj2 (mutator_panic_skips_unlock_and_refresh
                           fyne_v2 3 ex_registered))).
    reflexivity.
Defined.

Lemma ExtendBaseWidget_forwards_once_witness :
  idle ex_fresh /\
  ExtendBaseWidget (Some (Derived 1)) ex_fresh = Ok tt ex_registered /\
  idle ex_registered /\
  ExtendBaseWidget (Some (Derived 2)) ex_registered =
    Ok tt (logged [EvRLock; EvRUnlock] ex_registered).
Proof.
  split; [reflexivity|]. split; [|split; [reflexivity|]].
  - apply (proj1 (ExtendBaseWidget_forwards_once fyne_v2 ex_Render Build_ExRenderer
                    (Some (Derived 1)) (w := ex_fresh) eq_refl)).
    reflexivity.
  - apply (proj1 (proj2 (ExtendBaseWidget_forwards_once
                           fyne_v2 ex_Render Build_ExRenderer
                           (Some (Derived 2)) (w := ex_registered) eq_refl))
             (Derived 1)).
    reflexivity.
Defined.

Lemma SetStateSafe_not_reentrant_witness :
  is_held 3 (ext (locked 3 ex_registered)) = true /\
  SetStateSafe fyne_v2 3 ex_bump (locked 3 ex_registered) =
    Blocked (locked 3 ex_registered) /\
  is_held 3 (ext ex_registered) = false /\
  SetStateSafe fyne_v2 3 (SetStateSafe fyne_v2 3 ex_bump) ex_registered =
    Blocked (locked 3 ex_registered).
Proof.
  split; [reflexivity|]. split; [|split; [reflexivity|]].
  - apply (proj1 (SetStateSafe_not_reentrant fyne_v2 3 ex_bump ex_bump
                    (locked 3 ex_registered))).
    reflexivity.
  - apply (proj2 (SetStateSafe_not_reentrant fyne_v2 3 ex_bump ex_bump
                    ex_registered)).
    reflexivity.
Defined.

Lemma SetStateSafe_mutator_released_lock_witness :
  is_held 3 (ext ex_registered) = false /\
  is_held 3 (ext (final (ex_release_all (locked 3 ex_registered)))) = false /\
  SetStateSafe fyne_v2 3 ex_release_all ex_registered =
    Panic UnlockOfUnlocked (final (ex_release_all (locked 3 ex_registered))).
Proof.
  split; [reflexivity|]. split; [reflexivity|].
  apply SetStateSafe_mutator_released_lock; reflexivity.
Defined.

Lemma SetStateSafe_restores_locks_witness :
  is_held 3 (ext (locked 5 ex_registered)) = false /\
  held (ext (final (SetStateSafe fyne_v2 3 ex_bump (locked 5 ex_registered))))
  = [5].
Proof.
  split; [reflexivity|].
  apply (SetStateSafe_restores_locks fyne_v2 (m := 3) ex_bump
           (w := locked 5 ex_registered)
           (w1 := ex_bumped (locked 3 (locked 5 ex_registered)))
           (d := Derived 1));
    reflexivity.
Defined.

Lemma SetState_nested_refreshes_twice_witness :
  ex_bump ex_registered = Ok tt (ex_bumped ex_registered) /\
  SetState fyne_v2 (SetState fyne_v2 ex_bump) ex_registered =
    Ok tt (logged [EvRLock; EvRUnlock; EvRefresh (Derived 1);
                   EvRLock; EvRUnlock; EvRefresh (Derived 1)]
                  (ex_bumped ex_registered)).
Proof.
  split; [reflexivity|].
  apply SetState_nested_refreshes_twice; reflexivity.
Defined.

Lemma SetState_registering_mutator_witness :
  idle ex_fresh /\
  impl (base ex_fresh) = None /\
  SetState fyne_v2 (ExtendBaseWidget (Some (Derived 1))) ex_fresh =
    Ok tt (logged [EvRLock; EvRUnlock; EvRefresh (Derived 1)] ex_registered).
Proof.
  split; [reflexivity|]. split; [reflexivity|].
  apply (SetState_registering_mutator fyne_v2 (w := ex_fresh) (Derived 1));
    reflexivity.
Defined.

Lemma CreateRenderer_Render_panics_witness :
  writer (propertyLock (base ex_registered_0)) = false /\
  ex_Render 0 (ext ex_registered_0) = None /\
  CreateRenderer fyne_v2 ex_Render Build_ExRenderer ex_registered_0 =
    Panic UserPanic
          (logged [EvRLock; EvRUnlock; EvRender (Derived 0)] ex_registered_0).
Proof.
  split; [reflexivity|]. split; [reflexivity|].
  apply CreateRenderer_Render_panics; reflexivity.
Defined.

Lemma SetStateSafe_nested_locks_witness :
  3 <> 4 /\
  SetStateSafe fyne_v2 3 (SetStateSafe fyne_v2 4 ex_bump) ex_registered =
    Ok tt (logged [EvRLock; EvRUnlock; EvRefresh (Derived 1)]
             (released 3
                (logged [EvRLock; EvRUnlock; EvRefresh (Derived 1)]
                   (released 4
                      (ex_bumped (locked 4 (locked 3 ex_registered))))))) /\
  is_held 3
    (ext (logged [EvRLock; EvRUnlock; EvRefresh (Derived 1)]
            (released 4 (ex_bumped (locked 4 (locked 3 ex_registered))))))
  = true.
Proof.
  split; [discriminate|].
  destruct (SetStateSafe_nested_locks fyne_v2 (m1 := 3) (m2 := 4) ex_bump
              ex_registered
              (w1 := ex_bumped (locked 4 (locked 3 ex_registered)))
              (d := Derived 1))
    as (E & H & _); try reflexivity; [discriminate|].
  split; assumption.
Defined.

Lemma first_registration_wins_witness :
  idle ex_fresh /\
  impl (base ex_fresh) = None /\
  exists w',
    run fyne_v2 ex_Render Build_ExRenderer
        (register_all [None; Some (Derived 1); Some (Derived 2)]) ex_fresh
    = Ok tt w' /\
    impl (base w') = Some (Derived 1) /\
    idle w' /\
    ext w' = ext ex_fresh /\
    host_calls (trace w') =
      host_calls (trace ex_fresh) ++ [None; Some (Derived 1)].
Proof.
  split; [reflexivity|]. split; [reflexivity|].
  apply (first_registration_wins fyne_v2 ex_Render Build_ExRenderer
           [None; Some (Derived 1); Some (Derived 2)] (w := ex_fresh));
    reflexivity.
Defined.

Lemma propertyLock_free_on_every_path_witness :
  idle ex_fresh /\
  run fyne_v2 ex_Render Build_ExRenderer ex_failing_client ex_fresh =
    Panic UserPanic (locked 3 ex_fresh) /\
  idle (final (run fyne_v2 ex_Render Build_ExRenderer
                   ex_failing_client ex_fresh)).
Proof.
  split; [reflexivity|]. split; [reflexivity|].
  apply (proj1 (propertyLock_free_on_every_path fyne_v2 ex_Render
                  Build_ExRenderer ex_failing_client (w := ex_fresh) eq_refl)).
Defined.

